(** * versionCheck.py: the ESP-IDF version gate

    A shallow embedding of
    [build/devices/esp32/xsProj-esp32/versionCheck.py] and the properties
    of its exit code and standard output.

    The script is a straight-line module body.  It is embedded in a small
    monad that threads the text printed so far and stops at the first
    [sys.exit] or uncaught exception. *)

From stdpp Require Import base list strings.
From Stdlib Require Import ZArith Lia Ascii.

Local Open Scope string_scope.
Local Open Scope list_scope.

(** ** Python values and outcomes *)

(** The elements of the lists [g] and [e]: the tokens produced by
    [str.split] are strings, the padding element appended by
    [append(0)] is an integer. *)
Inductive value : Type :=
  | VStr (s : string)
  | VInt (n : Z).

(** The only exception the script can raise by itself. *)
Inductive exn : Type :=
  | IndexError.

(** How the run of the script ends: [sys.exit(code)], or an exception
    that nothing catches. *)
Inductive stop : Type :=
  | SysExit (code : Z)
  | Uncaught (x : exn).

(** What is observed of a run: the arguments of the [print] calls in
    order (each one is a line of standard output) and how the run ended. *)
Record outcome : Type := Outcome {
  stdout : list string;
  ended : stop
}.

(** The exit status of the process.  An uncaught exception makes the
    interpreter write a traceback to standard error and exit with 1. *)
Definition exit_code (o : outcome) : Z :=
  match ended o with
  | SysExit code => code
  | Uncaught _ => 1%Z
  end.

#[global] Instance value_eq_dec : EqDecision value.
Proof. solve_decision. Defined.

#[global] Instance exn_eq_dec : EqDecision exn.
Proof. solve_decision. Defined.

#[global] Instance stop_eq_dec : EqDecision stop.
Proof. solve_decision. Defined.

(** [a == b] on values: a string never equals an integer. *)
Definition py_eq (a b : value) : bool :=
  match a, b with
  | VStr s, VStr t => String.eqb s t
  | VInt n, VInt m => Z.eqb n m
  | _, _ => false
  end.

(** [a != b] on values. *)
Definition py_ne (a b : value) : bool := negb (py_eq a b).

(** ** The script monad *)

Module Script.

(** A computation takes the lines printed so far and gives them back
    extended, with either a value or the reason the run stopped. *)
Definition M (A : Type) : Type := list string -> list string * (stop + A).

Definition ret {A} (a : A) : M A := fun out => (out, inr a).

Definition bind {A B} (m : M A) (k : A -> M B) : M B :=
  fun out =>
    match m out with
    | (out', inl s) => (out', inl s)
    | (out', inr a) => k a out'
    end.

(** [print(s)] *)
Definition print (s : string) : M unit := fun out => (out ++ [s], inr ()).

(** [sys.exit(code)] *)
Definition sys_exit {A} (code : Z) : M A := fun out => (out, inl (SysExit code)).

Definition raise {A} (x : exn) : M A := fun out => (out, inl (Uncaught x)).

(** [l[i]] for a literal index [i >= 0]: out of range raises. *)
Definition getitem {A} (l : list A) (i : nat) : M A :=
  match l !! i with
  | Some a => ret a
  | None => raise IndexError
  end.

(** An [if] without [else]. *)
Definition when (b : bool) (m : M unit) : M unit := if b then m else ret ().

(** Running a module body from an empty standard output; a body that
    reaches its end exits with 0. *)
Definition run (m : M unit) : outcome :=
  match m [] with
  | (out, inl s) => Outcome out s
  | (out, inr _) => Outcome out (SysExit 0)
  end.

End Script.

Import Script.

(** The monad notations [x ← m; k] and [m ;; k] are those of stdpp. *)
#[global] Instance M_ret : MRet M := @ret.
#[global] Instance M_bind : MBind M := fun A B k m => bind m k.

(** ** [str.split] *)

(** [s.split(sep)] for a one-character separator: the maximal pieces of
    [s] between occurrences of [sep]; there is one piece more than there
    are separators, so the result is never empty. *)
Fixpoint split (sep : ascii) (s : string) : list string :=
  match s with
  | EmptyString => [EmptyString]
  | String c s' =>
      if Ascii.eqb c sep then EmptyString :: split sep s'
      else match split sep s' with
           | t :: ts => String c t :: ts
           | [] => [String c EmptyString]
           end
  end.

(** ** The script *)

Definition update : string :=
  "  See update instrucitons at: https://github.com/Moddable-OpenSource/moddable/blob/public/documentation/devices/esp32.md".

(** [g = s.split("."); if len(g) < 3: g.append(0)] *)
Definition components (s : string) : list value :=
  let g : list value := VStr <$> split "."%char s in
  if (length g <? 3)%nat then g ++ [VInt 0] else g.

(** The module body, for [sys.argv = argv]. *)
Definition main (argv : list string) : M unit :=
  when (length argv <? 3)%nat
    (print "Not enough parameters" ;;
     sys_exit 1) ;;
  expected ← getitem argv 1;
  given ← getitem argv 2;
  let g := components given in
  let e := components expected in
  g0 ← getitem g 0; e0 ← getitem e 0;
  if py_eq g0 e0 then
    g1 ← getitem g 1; e1 ← getitem e 1;
    if py_eq g1 e1 then
      g2 ← getitem g 2; e2 ← getitem e 2;
      if py_eq g2 e2 then
        sys_exit 0
      else
        g2' ← getitem g 2; e2' ← getitem e 2;
        when (py_ne g2' e2')
          (print ("Recommend using ESP-IDF " +:+ expected +:+ " (found " +:+ given +:+ ")") ;;
           print update) ;;
        sys_exit 0
    else
      print ("*** Update required to ESP-IDF " +:+ expected) ;;
      print update ;;
      sys_exit 1
  else
    print ("*** Update required to ESP-IDF " +:+ expected) ;;
    print update ;;
    sys_exit 1.

(** One invocation of the script with [sys.argv = argv]. *)
Definition versionCheck (argv : list string) : outcome := run (main argv).

(** Unfolds the monad down to pairs of output and result. *)
Ltac script_unfold :=
  unfold versionCheck, run, main, when, getitem, mbind, M_bind, bind, mret,
    M_ret, ret, print, sys_exit, raise.

(** The two messages, as the script builds them. *)
Definition blocking (expected : string) : outcome :=
  Outcome ["*** Update required to ESP-IDF " +:+ expected; update] (SysExit 1).

Definition advisory (expected given : string) : outcome :=
  Outcome ["Recommend using ESP-IDF " +:+ expected +:+ " (found " +:+ given +:+ ")";
           update] (SysExit 0).

(** ** Equality of values *)

Lemma py_eq_true (a b : value) : py_eq a b = true <-> a = b.
Proof.
  destruct a as [s|n], b as [t|m]; simpl; try (split; congruence).
  - rewrite String.eqb_eq. split; congruence.
  - rewrite Z.eqb_eq. split; congruence.
Qed.

Lemma py_eq_false (a b : value) : py_eq a b = false <-> a <> b.
Proof.
  rewrite <- py_eq_true. destruct (py_eq a b); split; congruence.
Qed.

Lemma py_eq_refl (a : value) : py_eq a a = true.
Proof. now apply py_eq_true. Qed.

Lemma py_ne_true (a b : value) : py_ne a b = true <-> a <> b.
Proof. unfold py_ne. rewrite negb_true_iff. apply py_eq_false. Qed.

(** ** Splitting and padding *)

Lemma split_length_pos (sep : ascii) (s : string) : 1 <= length (split sep s).
Proof.
  induction s as [|c s IH]; simpl; [lia|].
  destruct (Ascii.eqb c sep); simpl; [lia|].
  destruct (split sep s); simpl; lia.
Qed.

Lemma components_length (s : string) :
  length (components s) =
  if (length (split "."%char s) <? 3)%nat then S (length (split "."%char s))
  else length (split "."%char s).
Proof.
  unfold components. rewrite length_fmap.
  destruct (length (split "."%char s) <? 3)%nat.
  - rewrite length_app, length_fmap. simpl. lia.
  - now rewrite length_fmap.
Qed.

(** Below the number of tokens, the components are the tokens. *)
Lemma components_lookup_token (s : string) (i : nat) :
  i < length (split "."%char s) ->
  components s !! i = VStr <$> (split "."%char s !! i).
Proof.
  intros Hi. unfold components. rewrite length_fmap.
  destruct (length (split "."%char s) <? 3)%nat.
  - rewrite lookup_app_l by (rewrite length_fmap; lia). apply list_lookup_fmap.
  - apply list_lookup_fmap.
Qed.

(** The element appended to a short list sits right after the tokens. *)
Lemma components_lookup_pad (s : string) :
  length (split "."%char s) < 3 ->
  components s !! length (split "."%char s) = Some (VInt 0).
Proof.
  intros Hlt. unfold components. rewrite length_fmap.
  apply Nat.ltb_lt in Hlt. rewrite Hlt.
  rewrite lookup_app_r by (rewrite length_fmap; lia).
  rewrite length_fmap, Nat.sub_diag. reflexivity.
Qed.

Lemma components_lookup_ge (s : string) (i : nat) :
  length (components s) <= i -> components s !! i = None.
Proof. apply lookup_ge_None_2. Qed.

(** Index 0 always holds the first token. *)
Lemma components_major (s : string) :
  exists t, split "."%char s !! 0 = Some t /\ components s !! 0 = Some (VStr t).
Proof.
  pose proof (split_length_pos "."%char s) as Hpos.
  destruct (split "."%char s !! 0) as [t|] eqn:Ht.
  - exists t. split; [reflexivity|].
    rewrite components_lookup_token by lia. now rewrite Ht.
  - apply lookup_ge_None in Ht. lia.
Qed.

(** Index 1 always exists: it holds the second token, or the padding. *)
Lemma components_minor (s : string) :
  exists v, components s !! 1 = Some v /\
    (v = VInt 0 <-> length (split "."%char s) = 1).
Proof.
  pose proof (split_length_pos "."%char s) as Hpos.
  destruct (decide (length (split "."%char s) = 1)) as [H1|H1].
  - exists (VInt 0). split; [|tauto].
    pose proof (components_lookup_pad s) as Hp. rewrite H1 in Hp. apply Hp. lia.
  - destruct (split "."%char s !! 1) as [t|] eqn:Ht.
    + exists (VStr t). split; [|split; [discriminate|tauto]].
      rewrite components_lookup_token by lia. now rewrite Ht.
    + apply lookup_ge_None in Ht. lia.
Qed.

(** Two tokens or more give three components or more. *)
Lemma components_length_ge (s : string) :
  2 <= length (split "."%char s) -> 3 <= length (components s).
Proof.
  intros Hlen. rewrite components_length.
  destruct (length (split "."%char s) <? 3)%nat eqn:E; [lia|].
  apply Nat.ltb_ge in E. lia.
Qed.

(** Index 2 exists exactly when the string has two tokens or more. *)
Lemma components_patch (s : string) :
  is_Some (components s !! 2) <-> 2 <= length (split "."%char s).
Proof.
  rewrite lookup_lt_is_Some, components_length.
  destruct (length (split "."%char s) <? 3)%nat eqn:E.
  - lia.
  - apply Nat.ltb_ge in E. lia.
Qed.

(** ** The decision, case by case *)

Section Supplied.

Variables (prog expected given : string) (rest : list string).

(** With both arguments supplied, the run is decided by the elements at
    indices 0, 1 and 2 of the two padded lists, read in that order,
    [g] before [e]. *)
Lemma versionCheck_supplied :
  versionCheck (prog :: expected :: given :: rest) =
    match components given !! 0, components expected !! 0 with
    | Some g0, Some e0 =>
        if py_eq g0 e0 then
          match components given !! 1, components expected !! 1 with
          | Some g1, Some e1 =>
              if py_eq g1 e1 then
                match components given !! 2, components expected !! 2 with
                | Some g2, Some e2 =>
                    if py_eq g2 e2 then Outcome [] (SysExit 0)
                    else advisory expected given
                | _, _ => Outcome [] (Uncaught IndexError)
                end
              else blocking expected
          | _, _ => Outcome [] (Uncaught IndexError)
          end
        else blocking expected
    | _, _ => Outcome [] (Uncaught IndexError)
    end.
Proof.
  script_unfold. cbn [length Nat.ltb Nat.leb lookup list_lookup].
  destruct (components given !! 0) as [g0|]; [|reflexivity].
  destruct (components expected !! 0) as [e0|]; [|reflexivity].
  destruct (py_eq g0 e0); [|reflexivity].
  destruct (components given !! 1) as [g1|]; [|reflexivity].
  destruct (components expected !! 1) as [e1|]; [|reflexivity].
  destruct (py_eq g1 e1); [|reflexivity].
  destruct (components given !! 2) as [g2|]; [|reflexivity].
  destruct (components expected !! 2) as [e2|]; [|reflexivity].
  unfold py_ne. destruct (py_eq g2 e2); reflexivity.
Qed.

End Supplied.

(** Too few arguments: one line, exit 1, whatever the arguments are. *)
Lemma versionCheck_short (argv : list string) :
  length argv < 3 ->
  versionCheck argv = Outcome ["Not enough parameters"] (SysExit 1).
Proof.
  intros Hlen. script_unfold.
  apply Nat.ltb_lt in Hlen. rewrite Hlen. reflexivity.
Qed.

(** A string without separator has the padding at index 1 and nothing at
    index 2. *)
Lemma components_one_token (s : string) :
  length (split "."%char s) = 1 ->
  components s !! 1 = Some (VInt 0) /\ components s !! 2 = None.
Proof.
  intros H1. split.
  - pose proof (components_lookup_pad s) as Hp. rewrite H1 in Hp. apply Hp. lia.
  - apply components_lookup_ge. rewrite components_length, H1. simpl. lia.
Qed.

(** Equal minor components come from lists of the same kind: both padded
    at index 1, or both with a second token. *)
Lemma minor_eq_tokens (a b : string) :
  components a !! 1 = components b !! 1 ->
  (length (split "."%char a) = 1 <-> length (split "."%char b) = 1).
Proof.
  intros Heq.
  destruct (components_minor a) as (va & Ha & Hva).
  destruct (components_minor b) as (vb & Hb & Hvb).
  rewrite Ha, Hb in Heq. injection Heq as ->.
  rewrite <- Hva, <- Hvb. reflexivity.
Qed.

(** ** The decision table *)

(** C3: an invocation with fewer than 2 positional arguments after the
    program name prints exactly "Not enough parameters" and exits with
    code 1; the arguments themselves are not looked at. *)
Theorem not_enough_parameters (prog : string) (args : list string) :
  length args < 2 ->
  versionCheck (prog :: args) = Outcome ["Not enough parameters"] (SysExit 1) /\
  exit_code (versionCheck (prog :: args)) = 1%Z.
Proof.
  intros Hlen.
  assert (H : versionCheck (prog :: args) =
              Outcome ["Not enough parameters"] (SysExit 1)).
  { apply versionCheck_short. simpl. lia. }
  rewrite H. split; reflexivity.
Qed.

Lemma not_enough_parameters_witness :
  length ["4.4.2"] < 2 /\
  versionCheck ["versionCheck.py"; "4.4.2"] =
    Outcome ["Not enough parameters"] (SysExit 1).
Proof.
  split.
  - simpl. lia.
  - apply (not_enough_parameters "versionCheck.py" ["4.4.2"]). simpl. lia.
Defined.

(** C4: when the major components (index 0) differ, or they are equal and
    the minor components (index 1) differ, the script prints
    "*** Update required to ESP-IDF " + expected, then the update line,
    and exits with code 1. *)
Theorem update_required (prog expected given : string) (rest : list string) :
  components given !! 0 <> components expected !! 0 \/
  (components given !! 0 = components expected !! 0 /\
   components given !! 1 <> components expected !! 1) ->
  versionCheck (prog :: expected :: given :: rest) =
    Outcome ["*** Update required to ESP-IDF " +:+ expected; update] (SysExit 1) /\
  exit_code (versionCheck (prog :: expected :: given :: rest)) = 1%Z.
Proof.
  intros Hdiff. rewrite versionCheck_supplied.
  destruct (components_major given) as (tg & _ & Hg0).
  destruct (components_major expected) as (te & _ & He0).
  destruct (components_minor given) as (g1 & Hg1 & _).
  destruct (components_minor expected) as (e1 & He1 & _).
  rewrite Hg0, He0, Hg1, He1 in *.
  destruct Hdiff as [H0 | [H0 H1]].
  - assert (Hf : py_eq (VStr tg) (VStr te) = false)
      by (apply py_eq_false; congruence).
    rewrite Hf. split; reflexivity.
  - injection H0 as ->. rewrite py_eq_refl.
    assert (Hf : py_eq g1 e1 = false) by (apply py_eq_false; congruence).
    rewrite Hf. split; reflexivity.
Qed.

Lemma update_required_witness :
  versionCheck ["versionCheck.py"; "4.4.2"; "4.3.2"] =
    Outcome ["*** Update required to ESP-IDF 4.4.2"; update] (SysExit 1) /\
  versionCheck ["versionCheck.py"; "5.0.0"; "4.9.9"] =
    Outcome ["*** Update required to ESP-IDF 5.0.0"; update] (SysExit 1).
Proof.
  split.
  - apply (update_required "versionCheck.py" "4.4.2" "4.3.2" []).
    right. split; [reflexivity | vm_compute; discriminate].
  - apply (update_required "versionCheck.py" "5.0.0" "4.9.9" []).
    left. vm_compute. discriminate.
Defined.

(** Equal major and minor components with different elements at index 2:
    both elements exist, and the recommendation is printed. *)
Lemma patch_differs_advisory (prog expected given : string) (rest : list string) :
  components given !! 0 = components expected !! 0 ->
  components given !! 1 = components expected !! 1 ->
  components given !! 2 <> components expected !! 2 ->
  versionCheck (prog :: expected :: given :: rest) = advisory expected given.
Proof.
  intros H0 H1 H2. rewrite versionCheck_supplied.
  pose proof (minor_eq_tokens _ _ H1) as Hkind.
  destruct (components_major given) as (tg & _ & Hg0).
  destruct (components_minor given) as (g1 & Hg1 & _).
  rewrite <- H0, <- H1, Hg0, Hg1, !py_eq_refl.
  destruct (decide (length (split "."%char given) = 1)) as [Hone | Hmore].
  - destruct (components_one_token given Hone) as [_ Hg2].
    destruct (components_one_token expected (proj1 Hkind Hone)) as [_ He2].
    congruence.
  - pose proof (split_length_pos "."%char given).
    pose proof (split_length_pos "."%char expected).
    assert (Hg : is_Some (components given !! 2))
      by (apply components_patch; lia).
    assert (He : is_Some (components expected !! 2))
      by (apply components_patch; lia).
    destruct Hg as [g2 Hg2], He as [e2 He2]. rewrite Hg2, He2 in *.
    assert (Hf : py_eq g2 e2 = false) by (apply py_eq_false; congruence).
    rewrite Hf. reflexivity.
Qed.

(** C5: when the major and the minor components are equal and the patch
    components (index 2) differ, the script prints
    "Recommend using ESP-IDF " + expected + " (found " + given + ")",
    then the update line, and exits with code 0. *)
Theorem recommend_on_patch (prog expected given : string) (rest : list string) :
  components given !! 0 = components expected !! 0 ->
  components given !! 1 = components expected !! 1 ->
  components given !! 2 <> components expected !! 2 ->
  versionCheck (prog :: expected :: given :: rest) =
    Outcome ["Recommend using ESP-IDF " +:+ expected +:+ " (found " +:+ given +:+ ")";
             update] (SysExit 0) /\
  exit_code (versionCheck (prog :: expected :: given :: rest)) = 0%Z.
Proof.
  intros H0 H1 H2.
  rewrite (patch_differs_advisory prog expected given rest H0 H1 H2).
  split; reflexivity.
Qed.

Lemma recommend_on_patch_witness :
  versionCheck ["versionCheck.py"; "4.4.2"; "4.4.5"] =
    Outcome ["Recommend using ESP-IDF 4.4.2 (found 4.4.5)"; update] (SysExit 0).
Proof.
  apply (recommend_on_patch "versionCheck.py" "4.4.2" "4.4.5" []).
  - reflexivity.
  - reflexivity.
  - vm_compute. discriminate.
Defined.

(** ** Identical arguments *)

(** Identical arguments with a separator in them: exit 0, no output. *)
Lemma identical_with_dot (prog s : string) (rest : list string) :
  2 <= length (split "."%char s) ->
  versionCheck (prog :: s :: s :: rest) = Outcome [] (SysExit 0).
Proof.
  intros Hlen. rewrite versionCheck_supplied.
  destruct (components_major s) as (t & _ & H0).
  destruct (components_minor s) as (v & H1 & _).
  destruct (proj2 (components_patch s) Hlen) as [w H2].
  rewrite H0, H1, H2, !py_eq_refl. reflexivity.
Qed.

(** Identical arguments without separator: the read of [g[2]] raises. *)
Lemma identical_without_dot (prog s : string) (rest : list string) :
  length (split "."%char s) = 1 ->
  versionCheck (prog :: s :: s :: rest) = Outcome [] (Uncaught IndexError).
Proof.
  intros Hlen. rewrite versionCheck_supplied.
  destruct (components_major s) as (t & _ & H0).
  destruct (components_one_token s Hlen) as [H1 H2].
  rewrite H0, H1, H2, !py_eq_refl. reflexivity.
Qed.

(** C1: identical arguments should give exit code 0 and no output.  With
    expected = given = "4" the script instead stops on an uncaught
    IndexError at [g[2]]: each list is ["4", 0] after the single append,
    and the process exits with status 1. *)
Theorem identical_single_token_raises :
  components "4" = [VStr "4"; VInt 0] /\
  versionCheck ["versionCheck.py"; "4"; "4"] = Outcome [] (Uncaught IndexError) /\
  exit_code (versionCheck ["versionCheck.py"; "4"; "4"]) = 1%Z.
Proof. repeat split. Qed.

(** C7: expected = "4.4" and given = "4.4" are both padded with the
    integer 0 as third element, compare equal component by component,
    and the script exits with code 0 without output. *)
Theorem both_padded_equal (prog : string) (rest : list string) :
  components "4.4" = [VStr "4"; VStr "4"; VInt 0] /\
  versionCheck (prog :: "4.4" :: "4.4" :: rest) = Outcome [] (SysExit 0) /\
  exit_code (versionCheck (prog :: "4.4" :: "4.4" :: rest)) = 0%Z.
Proof.
  assert (H : versionCheck (prog :: "4.4" :: "4.4" :: rest) = Outcome [] (SysExit 0)).
  { rewrite versionCheck_supplied. reflexivity. }
  rewrite H. repeat split.
Qed.

(** ** The shape of the padded list *)

(** C2, as stated, fails: four tokens stay four components, and a single
    token is padded to two components only. *)
Lemma components_not_always_three :
  length (components "1.2.3.4") = 4 /\ length (components "4") = 2.
Proof. split; reflexivity. Qed.

(** C2, amended: a string with at least 2 tokens gives at least 3
    components, of which the script reads the first three; with exactly
    2 tokens the integer 0 is appended and the list has exactly 3
    elements, with 3 tokens or more the list is the list of tokens. *)
Theorem components_three (s : string) :
  2 <= length (split "."%char s) ->
  3 <= length (components s) /\
  length (take 3 (components s)) = 3 /\
  (length (split "."%char s) = 2 ->
   components s = (VStr <$> split "."%char s) ++ [VInt 0] /\
   length (components s) = 3) /\
  (3 <= length (split "."%char s) ->
   components s = VStr <$> split "."%char s).
Proof.
  intros Hlen.
  pose proof (components_length_ge s Hlen) as H3.
  split; [exact H3|]. split; [rewrite length_take; lia|]. split.
  - intros H2. unfold components. rewrite length_fmap, H2. simpl.
    split; [reflexivity|]. rewrite length_app, length_fmap, H2. reflexivity.
  - intros Hge. unfold components. rewrite length_fmap.
    apply Nat.ltb_ge in Hge. rewrite Hge. reflexivity.
Qed.

Lemma components_three_witness :
  3 <= length (components "4.4") /\
  length (take 3 (components "4.4.2.1")) = 3.
Proof.
  split.
  - apply (components_three "4.4"). simpl. lia.
  - apply (components_three "4.4.2.1"). simpl. lia.
Defined.

(** ** Tokens after the third *)

(** Strings with the same first three tokens have the same components at
    the three indices the script reads. *)
Lemma components_take (a b : string) (i : nat) :
  take 3 (split "."%char a) = take 3 (split "."%char b) ->
  i < 3 ->
  components a !! i = components b !! i.
Proof.
  intros Htake Hi.
  pose proof (f_equal length Htake) as Hlen. rewrite !length_take in Hlen.
  destruct (decide (length (split "."%char a) < 3)) as [Hshort | Hlong].
  - rewrite !take_ge in Htake by lia.
    unfold components. now rewrite Htake.
  - unfold components. rewrite !length_fmap.
    assert (Ha : (length (split "."%char a) <? 3)%nat = false)
      by (apply Nat.ltb_ge; lia).
    assert (Hb : (length (split "."%char b) <? 3)%nat = false)
      by (apply Nat.ltb_ge; lia).
    rewrite Ha, Hb, !list_lookup_fmap.
    rewrite <- (lookup_take_lt (split "."%char a) 3 i) by lia.
    rewrite <- (lookup_take_lt (split "."%char b) 3 i) by lia.
    now rewrite Htake.
Qed.

(** C6, as stated, fails: the messages quote the arguments in full, so a
    fourth token of [expected] shows in the output. *)
Lemma extra_tokens_change_output :
  take 3 (split "."%char "4.4.2.1") = take 3 (split "."%char "4.4.2.9") /\
  stdout (versionCheck ["versionCheck.py"; "4.4.2.1"; "4.3.2"]) <>
  stdout (versionCheck ["versionCheck.py"; "4.4.2.9"; "4.3.2"]).
Proof. split; [reflexivity | vm_compute; discriminate]. Qed.

(** C6, amended: two invocations whose arguments agree on the first three
    tokens of each version end the same way (same exit code) and print
    the same kind of message: nothing, the recommendation or the update
    requirement, each quoting its own arguments in full.  With three
    tokens or more in both versions no exception is raised. *)
Theorem extra_tokens_same_verdict
    (prog1 prog2 expected1 expected2 given1 given2 : string)
    (rest1 rest2 : list string) :
  take 3 (split "."%char expected1) = take 3 (split "."%char expected2) ->
  take 3 (split "."%char given1) = take 3 (split "."%char given2) ->
  let r1 := versionCheck (prog1 :: expected1 :: given1 :: rest1) in
  let r2 := versionCheck (prog2 :: expected2 :: given2 :: rest2) in
  ended r1 = ended r2 /\
  exit_code r1 = exit_code r2 /\
  ((stdout r1 = [] /\ stdout r2 = []) \/
   (r1 = advisory expected1 given1 /\ r2 = advisory expected2 given2) \/
   (r1 = blocking expected1 /\ r2 = blocking expected2)) /\
  (3 <= length (split "."%char expected1) ->
   3 <= length (split "."%char given1) ->
   exists code, ended r1 = SysExit code).
Proof.
  intros He Hg r1 r2. subst r1 r2. unfold exit_code.
  rewrite !versionCheck_supplied.
  rewrite <- !(components_take _ _ _ He), <- !(components_take _ _ _ Hg) by lia.
  assert (Hpatch :
    3 <= length (split "."%char expected1) ->
    3 <= length (split "."%char given1) ->
    is_Some (components given1 !! 2) /\ is_Some (components expected1 !! 2)).
  { intros; split; apply components_patch; lia. }
  destruct (components_major given1) as (tg & _ & Hg0).
  destruct (components_major expected1) as (te & _ & He0).
  destruct (components_minor given1) as (g1 & Hg1 & _).
  destruct (components_minor expected1) as (e1 & He1 & _).
  rewrite Hg0, He0, Hg1, He1.
  destruct (py_eq (VStr tg) (VStr te)); [|simpl; eauto 10].
  destruct (py_eq g1 e1); [|simpl; eauto 10].
  destruct (components given1 !! 2) as [g2|], (components expected1 !! 2) as [e2|];
    try (simpl; repeat split; eauto;
         intros H1 H2; destruct (Hpatch H1 H2) as [[? ?] [? ?]]; discriminate).
  destruct (py_eq g2 e2); simpl; eauto 10.
Qed.

Lemma extra_tokens_same_verdict_witness :
  exit_code (versionCheck ["versionCheck.py"; "4.4.2.1"; "4.3.2"]) =
  exit_code (versionCheck ["versionCheck.py"; "4.4.2.9"; "4.3.2.7"]).
Proof.
  apply (extra_tokens_same_verdict "versionCheck.py" "versionCheck.py"
           "4.4.2.1" "4.4.2.9" "4.3.2" "4.3.2.7" [] []); reflexivity.
Defined.

(** ** No hidden state *)

(** The script always stops by itself, and what it appends to the
    standard output does not depend on what was printed before. *)
Lemma main_frame (argv out : list string) :
  main argv out =
    (out ++ stdout (versionCheck argv), inl (ended (versionCheck argv))).
Proof.
  destruct (decide (length argv < 3)) as [Hshort | Hlong].
  - rewrite versionCheck_short by exact Hshort.
    script_unfold. apply Nat.ltb_lt in Hshort. rewrite Hshort. reflexivity.
  - destruct argv as [|prog [|expected [|given rest]]]; simpl in Hlong; try lia.
    rewrite versionCheck_supplied.
    script_unfold. cbn [length Nat.ltb Nat.leb lookup list_lookup].
    destruct (components given !! 0) as [g0|]; [|now rewrite app_nil_r].
    destruct (components expected !! 0) as [e0|]; [|now rewrite app_nil_r].
    destruct (py_eq g0 e0); [|now rewrite <- app_assoc].
    destruct (components given !! 1) as [g1|]; [|now rewrite app_nil_r].
    destruct (components expected !! 1) as [e1|]; [|now rewrite app_nil_r].
    destruct (py_eq g1 e1); [|now rewrite <- app_assoc].
    destruct (components given !! 2) as [g2|]; [|now rewrite app_nil_r].
    destruct (components expected !! 2) as [e2|]; [|now rewrite app_nil_r].
    unfold py_ne. destruct (py_eq g2 e2); simpl.
    + now rewrite app_nil_r.
    + now rewrite <- app_assoc.
Qed.

(** C8: two runs with the same two positional arguments give the same
    exit code and the same standard output.  The result is a function of
    [expected] and [given] alone: the program name, further arguments and
    the text already on the standard output play no part. *)
Theorem deterministic
    (prog prog' expected given : string) (rest rest' out out' : list string) :
  versionCheck (prog :: expected :: given :: rest) =
  versionCheck (prog' :: expected :: given :: rest') /\
  exit_code (versionCheck (prog :: expected :: given :: rest)) =
  exit_code (versionCheck (prog' :: expected :: given :: rest')) /\
  exists lines s,
    main (prog :: expected :: given :: rest) out = (out ++ lines, inl s) /\
    main (prog' :: expected :: given :: rest') out' = (out' ++ lines, inl s).
Proof.
  assert (H : versionCheck (prog :: expected :: given :: rest) =
              versionCheck (prog' :: expected :: given :: rest'))
    by (now rewrite !versionCheck_supplied).
  split; [exact H|]. split; [now rewrite H|].
  exists (stdout (versionCheck (prog :: expected :: given :: rest))),
         (ended (versionCheck (prog :: expected :: given :: rest))).
  split; [apply main_frame|]. rewrite H. apply main_frame.
Qed.

(** ** Index accesses *)

(** C9: when both arguments split into at least 2 tokens, the indices 0,
    1 and 2 are in range in both padded lists and the run raises no
    exception.  When an argument has no separator (fewer than 2 tokens)
    and the major and the padded minor components are equal, the access
    at index 2 is out of range and the run stops on IndexError. *)
Theorem index_in_range (prog expected given : string) (rest : list string) :
  (2 <= length (split "."%char expected) ->
   2 <= length (split "."%char given) ->
   (forall i, i < 3 ->
      is_Some (components given !! i) /\ is_Some (components expected !! i)) /\
   exists code, ended (versionCheck (prog :: expected :: given :: rest)) = SysExit code) /\
  ((length (split "."%char expected) < 2 \/ length (split "."%char given) < 2) ->
   components given !! 0 = components expected !! 0 ->
   components given !! 1 = components expected !! 1 ->
   components given !! 2 = None /\
   versionCheck (prog :: expected :: given :: rest) = Outcome [] (Uncaught IndexError)).
Proof.
  pose proof (split_length_pos "."%char expected) as Hpe.
  pose proof (split_length_pos "."%char given) as Hpg.
  split.
  - intros He Hg.
    assert (Hall : forall s, 2 <= length (split "."%char s) ->
              forall i, i < 3 -> is_Some (components s !! i)).
    { intros s Hs i Hi. apply lookup_lt_is_Some.
      pose proof (components_length_ge s Hs). lia. }
    split; [intros i Hi; split; apply Hall; assumption|].
    rewrite versionCheck_supplied.
    destruct (Hall given Hg 0) as [g0 ->]; [lia|].
    destruct (Hall expected He 0) as [e0 ->]; [lia|].
    destruct (Hall given Hg 1) as [g1 ->]; [lia|].
    destruct (Hall expected He 1) as [e1 ->]; [lia|].
    destruct (Hall given Hg 2) as [g2 ->]; [lia|].
    destruct (Hall expected He 2) as [e2 ->]; [lia|].
    destruct (py_eq g0 e0), (py_eq g1 e1), (py_eq g2 e2); simpl; eauto.
  - intros Hshort H0 H1.
    pose proof (minor_eq_tokens _ _ H1) as Hkind.
    assert (Hg : length (split "."%char given) = 1) by (destruct Hshort; lia).
    destruct (components_one_token given Hg) as [Hg1 Hg2].
    split; [exact Hg2|].
    rewrite versionCheck_supplied.
    destruct (components_major given) as (tg & _ & Hg0).
    rewrite <- H0, <- H1, Hg0, Hg1, Hg2, !py_eq_refl. reflexivity.
Qed.

Lemma index_in_range_witness :
  (exists code,
     ended (versionCheck ["versionCheck.py"; "4.4.2"; "4.4"]) = SysExit code) /\
  versionCheck ["versionCheck.py"; "4"; "4"] = Outcome [] (Uncaught IndexError).
Proof.
  split.
  - apply (proj1 (index_in_range "versionCheck.py" "4.4.2" "4.4" []));
      simpl; lia.
  - apply (proj2 (index_in_range "versionCheck.py" "4" "4" [])).
    + left. simpl. lia.
    + reflexivity.
    + reflexivity.
Defined.

(** ** The padding is not the string "0" *)

(** C10, as stated, fails: given = "4.4" has 2 tokens and
    expected = "5.4.0" has the explicit third token "0", but the major
    components differ, so the update is required and the exit code is 1. *)
Lemma padding_pair_blocking :
  length (split "."%char "4.4") = 2 /\
  split "."%char "5.4.0" !! 2 = Some "0" /\
  versionCheck ["versionCheck.py"; "5.4.0"; "4.4"] =
    Outcome ["*** Update required to ESP-IDF 5.4.0"; update] (SysExit 1).
Proof. repeat split. Qed.

(** C10, amended: the padding element is the integer 0, not the string
    "0".  For every pair whose first two tokens agree, where one version
    string has exactly 2 tokens and the other has the explicit third
    token "0", the patch components compare unequal and the script prints
    the recommendation and exits with code 0. *)
Theorem padding_is_not_string_zero
    (prog expected given : string) (rest : list string) :
  split "."%char given !! 0 = split "."%char expected !! 0 ->
  split "."%char given !! 1 = split "."%char expected !! 1 ->
  (length (split "."%char given) = 2 /\ split "."%char expected !! 2 = Some "0") \/
  (length (split "."%char expected) = 2 /\ split "."%char given !! 2 = Some "0") ->
  components given !! 2 <> components expected !! 2 /\
  versionCheck (prog :: expected :: given :: rest) =
    Outcome ["Recommend using ESP-IDF " +:+ expected +:+ " (found " +:+ given +:+ ")";
             update] (SysExit 0) /\
  exit_code (versionCheck (prog :: expected :: given :: rest)) = 0%Z.
Proof.
  intros H0 H1 Hpad.
  assert (Hlens : 2 <= length (split "."%char given) /\
                  2 <= length (split "."%char expected)).
  { destruct Hpad as [[Hl Ht] | [Hl Ht]]; apply lookup_lt_Some in Ht; lia. }
  destruct Hlens as [Hlg Hle].
  assert (Hne : components given !! 2 <> components expected !! 2).
  { destruct Hpad as [[Hl Ht] | [Hl Ht]].
    - pose proof (components_lookup_pad given) as Hp. rewrite Hl in Hp.
      rewrite Hp by lia.
      rewrite (components_lookup_token expected 2) by (apply lookup_lt_Some in Ht; lia).
      rewrite Ht. discriminate.
    - pose proof (components_lookup_pad expected) as Hp. rewrite Hl in Hp.
      rewrite Hp by lia.
      rewrite (components_lookup_token given 2) by (apply lookup_lt_Some in Ht; lia).
      rewrite Ht. discriminate. }
  split; [exact Hne|].
  assert (Hmajor : components given !! 0 = components expected !! 0).
  { rewrite !components_lookup_token by lia. now rewrite H0. }
  assert (Hminor : components given !! 1 = components expected !! 1).
  { rewrite !components_lookup_token by lia. now rewrite H1. }
  rewrite (patch_differs_advisory prog expected given rest Hmajor Hminor Hne).
  split; reflexivity.
Qed.

Lemma padding_is_not_string_zero_witness :
  versionCheck ["versionCheck.py"; "4.4.0"; "4.4"] =
    Outcome ["Recommend using ESP-IDF 4.4.0 (found 4.4)"; update] (SysExit 0) /\
  versionCheck ["versionCheck.py"; "4.4"; "4.4.0"] =
    Outcome ["Recommend using ESP-IDF 4.4 (found 4.4.0)"; update] (SysExit 0).
Proof.
  split.
  - apply (padding_is_not_string_zero "versionCheck.py" "4.4.0" "4.4" []).
    + reflexivity.
    + reflexivity.
    + left. split; reflexivity.
  - apply (padding_is_not_string_zero "versionCheck.py" "4.4" "4.4.0" []).
    + reflexivity.
    + reflexivity.
    + right. split; reflexivity.
Defined.

(** * Further properties of the script *)

(** ** What [split] keeps *)

(** A string without separator is its own single token. *)
Lemma split_single (sep : ascii) (s : string) :
  length (split sep s) = 1 -> split sep s = [s].
Proof.
  induction s as [|c s IH]; simpl; [reflexivity|].
  pose proof (split_length_pos sep s) as Hpos.
  destruct (Ascii.eqb c sep); simpl; [lia|].
  destruct (split sep s) as [|t ts] eqn:E; simpl in *; [lia|].
  intros Hlen. destruct ts; simpl in *; [|lia].
  specialize (IH eq_refl). congruence.
Qed.

(** X10: joining the tokens with the separator gives the string back, so
    [split] loses nothing of its argument. *)
Theorem split_concat (sep : ascii) (s : string) :
  String.concat (String sep EmptyString) (split sep s) = s.
Proof.
  induction s as [|c s IH]; simpl; [reflexivity|].
  pose proof (split_length_pos sep s) as Hpos.
  destruct (Ascii.eqb_spec c sep) as [-> | Hne].
  - destruct (split sep s) as [|t ts] eqn:E; simpl in *; [lia|].
    now rewrite IH.
  - destruct (split sep s) as [|t ts] eqn:E; simpl in *; [lia|].
    destruct ts; simpl in *; now rewrite <- IH.
Qed.

(** X11: no token contains the separator. *)
Theorem split_tokens_clean (sep : ascii) (s : string) :
  Forall (fun t => ~ In sep (String.list_ascii_of_string t)) (split sep s).
Proof.
  induction s as [|c s IH]; simpl.
  - constructor; [simpl; tauto | constructor].
  - destruct (Ascii.eqb_spec c sep) as [-> | Hne].
    + constructor; [simpl; tauto | exact IH].
    + destruct (split sep s) as [|t ts].
      * constructor; [simpl; intuition congruence | constructor].
      * inversion IH as [|? ? Ht Hts]; subst.
        constructor; [simpl; intuition congruence | exact Hts].
Qed.

(** X12: there is one token more than there are separators in the
    string; in particular the empty string gives one (empty) token. *)
Theorem split_length (sep : ascii) (s : string) :
  length (split sep s) =
  S (count_occ ascii_dec (String.list_ascii_of_string s) sep).
Proof.
  induction s as [|c s IH]; simpl; [reflexivity|].
  pose proof (split_length_pos sep s) as Hpos.
  destruct (Ascii.eqb_spec c sep) as [-> | Hne].
  - destruct (ascii_dec sep sep) as [_|Hn]; [|congruence].
    simpl. now rewrite IH.
  - destruct (ascii_dec c sep) as [Heq|_]; [congruence|].
    destruct (split sep s) as [|t ts]; simpl in *; lia.
Qed.

(** ** The complete decision table *)


(** An argument list is too short or starts with the program name and
    the two versions. *)
Lemma argv_cases (argv : list string) :
  length argv < 3 \/
  exists prog expected given rest, argv = prog :: expected :: given :: rest.
Proof.
  destruct argv as [|prog [|expected [|given rest]]]; simpl; try (left; lia).
  right. eauto.
Qed.

(** Equal minor components leave index 2 present in both lists or absent
    in both. *)
Lemma patch_same_kind (a b : string) :
  components a !! 1 = components b !! 1 ->
  (is_Some (components a !! 2) <-> is_Some (components b !! 2)).
Proof.
  intros H1. pose proof (minor_eq_tokens _ _ H1) as Hkind.
  pose proof (split_length_pos "."%char a).
  pose proof (split_length_pos "."%char b).
  rewrite !components_patch. lia.
Qed.

(** With both arguments supplied exactly one of four things happens, and
    the components at indices 0, 1 and 2 say which. *)
Lemma versionCheck_cases (prog expected given : string) (rest : list string) :
  let r := versionCheck (prog :: expected :: given :: rest) in
  let G := components given in
  let E := components expected in
  ((G !! 0 <> E !! 0 \/ G !! 1 <> E !! 1) /\ r = blocking expected) \/
  (G !! 0 = E !! 0 /\ G !! 1 = E !! 1 /\ G !! 2 = None /\ E !! 2 = None /\
   r = Outcome [] (Uncaught IndexError)) \/
  (G !! 0 = E !! 0 /\ G !! 1 = E !! 1 /\ is_Some (G !! 2) /\ G !! 2 = E !! 2 /\
   r = Outcome [] (SysExit 0)) \/
  (G !! 0 = E !! 0 /\ G !! 1 = E !! 1 /\ is_Some (G !! 2) /\ is_Some (E !! 2) /\
   G !! 2 <> E !! 2 /\ r = advisory expected given).
Proof.
  intros r G E. subst r G E. rewrite versionCheck_supplied.
  destruct (components_major given) as (tg & _ & Hg0).
  destruct (components_major expected) as (te & _ & He0).
  destruct (components_minor given) as (g1 & Hg1 & _).
  destruct (components_minor expected) as (e1 & He1 & _).
  rewrite Hg0, He0, Hg1, He1.
  destruct (py_eq (VStr tg) (VStr te)) eqn:E0.
  2: { apply py_eq_false in E0. left. split; [left; congruence | reflexivity]. }
  apply py_eq_true in E0.
  destruct (py_eq g1 e1) eqn:E1.
  2: { apply py_eq_false in E1. left. split; [right; congruence | reflexivity]. }
  apply py_eq_true in E1. right.
  assert (Hkind : is_Some (components given !! 2) <->
                  is_Some (components expected !! 2)).
  { apply patch_same_kind. congruence. }
  destruct (components given !! 2) as [g2|] eqn:Hg2,
           (components expected !! 2) as [e2|] eqn:He2.
  - destruct (py_eq g2 e2) eqn:E2.
    + apply py_eq_true in E2. right. left.
      repeat split; eauto; congruence.
    + apply py_eq_false in E2. right. right.
      repeat split; eauto; congruence.
  - destruct (proj1 Hkind) as [? ?]; [eauto | discriminate].
  - destruct (proj2 Hkind) as [? ?]; [eauto | discriminate].
  - left. repeat split; congruence.
Qed.

(** The four outcomes are pairwise different. *)
Lemma blocking_not_advisory (expected expected' given : string) :
  blocking expected <> advisory expected' given.
Proof. unfold blocking, advisory. cbn. discriminate. Qed.

Lemma blocking_not_silent (expected : string) (s : stop) :
  blocking expected <> Outcome [] s.
Proof. unfold blocking. discriminate. Qed.

Lemma advisory_not_silent (expected given : string) (s : stop) :
  advisory expected given <> Outcome [] s.
Proof. unfold advisory. discriminate. Qed.

(** X4: with both arguments supplied, the update requirement (two lines,
    exit 1) is the outcome exactly when the major or the minor components
    differ. *)
Theorem blocking_iff (prog expected given : string) (rest : list string) :
  versionCheck (prog :: expected :: given :: rest) =
    Outcome ["*** Update required to ESP-IDF " +:+ expected; update] (SysExit 1) <->
  (components given !! 0 <> components expected !! 0 \/
   components given !! 1 <> components expected !! 1).
Proof.
  fold (blocking expected).
  destruct (versionCheck_cases prog expected given rest)
    as [(Hd & Hr) | [(H0 & H1 & _ & _ & Hr) | [(H0 & H1 & _ & _ & Hr) |
        (H0 & H1 & _ & _ & _ & Hr)]]]; rewrite Hr; split; try tauto; intros Hb.
  - symmetry in Hb. now apply blocking_not_silent in Hb.
  - symmetry in Hb. now apply blocking_not_silent in Hb.
  - symmetry in Hb. now apply blocking_not_advisory in Hb.
Qed.

(** X5: with both arguments supplied, the recommendation (two lines,
    exit 0) is the outcome exactly when the major and the minor components
    are equal and the components at index 2 differ. *)
Theorem advisory_iff (prog expected given : string) (rest : list string) :
  versionCheck (prog :: expected :: given :: rest) =
    Outcome ["Recommend using ESP-IDF " +:+ expected +:+ " (found " +:+ given +:+ ")";
             update] (SysExit 0) <->
  (components given !! 0 = components expected !! 0 /\
   components given !! 1 = components expected !! 1 /\
   components given !! 2 <> components expected !! 2).
Proof.
  fold (advisory expected given).
  destruct (versionCheck_cases prog expected given rest)
    as [(Hd & Hr) | [(H0 & H1 & Hg & He & Hr) | [(H0 & H1 & _ & H2 & Hr) |
        (H0 & H1 & _ & _ & H2 & Hr)]]]; rewrite Hr; split; try tauto.
  - intros Hb. now apply blocking_not_advisory in Hb.
  - intros Hb. symmetry in Hb. now apply advisory_not_silent in Hb.
  - intros (_ & _ & Hne). congruence.
  - intros Hb. symmetry in Hb. now apply advisory_not_silent in Hb.
Qed.

(** X6: with both arguments supplied, the script exits 0 without output
    exactly when [given] has a second token and the first three
    components of the two padded lists are the same.  Tokens after the
    third may differ. *)
Theorem silent_iff (prog expected given : string) (rest : list string) :
  versionCheck (prog :: expected :: given :: rest) = Outcome [] (SysExit 0) <->
  (2 <= length (split "."%char given) /\
   take 3 (components given) = take 3 (components expected)).
Proof.
  assert (Htake : forall i, i < 3 ->
            take 3 (components given) = take 3 (components expected) ->
            components given !! i = components expected !! i).
  { intros i Hi Heq.
    rewrite <- (lookup_take_lt (components given) 3 i) by lia.
    rewrite <- (lookup_take_lt (components expected) 3 i) by lia.
    now rewrite Heq. }
  destruct (versionCheck_cases prog expected given rest)
    as [(Hd & Hr) | [(H0 & H1 & Hg & He & Hr) | [(H0 & H1 & Hs & H2 & Hr) |
        (H0 & H1 & _ & _ & H2 & Hr)]]]; rewrite Hr; split.
  - intros Hb. now apply blocking_not_silent in Hb.
  - intros [_ Heq]. destruct Hd as [Hd | Hd]; exfalso; apply Hd, Htake; auto.
  - discriminate.
  - intros [Hlen _]. apply components_patch in Hlen.
    rewrite Hg in Hlen. now destruct Hlen.
  - intros _. split; [now apply components_patch|].
    apply list_eq. intros i.
    destruct (decide (i < 3)) as [Hi | Hi].
    + rewrite !lookup_take_lt by lia.
      destruct i as [|[|[|i]]]; [assumption | assumption | assumption | lia].
    + rewrite !lookup_take_ge by lia. reflexivity.
  - reflexivity.
  - intros Hb. now apply advisory_not_silent in Hb.
  - intros [_ Heq]. exfalso. apply H2, Htake; auto.
Qed.

(** X2: the script stops on an uncaught exception exactly when the two
    versions are the same string and that string has no separator. *)
Theorem raises_iff (argv : list string) :
  (exists x, ended (versionCheck argv) = Uncaught x) <->
  (exists prog s rest,
     argv = prog :: s :: s :: rest /\ length (split "."%char s) = 1).
Proof.
  split.
  - intros [x Hx].
    destruct (argv_cases argv) as [Hshort | (prog & expected & given & rest & ->)].
    { rewrite versionCheck_short in Hx by exact Hshort. discriminate. }
    destruct (versionCheck_cases prog expected given rest)
      as [(Hd & Hr) | [(H0 & H1 & Hg & He & Hr) | [(H0 & H1 & _ & H2 & Hr) |
          (H0 & H1 & _ & _ & H2 & Hr)]]]; rewrite Hr in Hx; try discriminate.
    pose proof (split_length_pos "."%char given) as Hpg.
    pose proof (split_length_pos "."%char expected) as Hpe.
    assert (Hlg : length (split "."%char given) = 1).
    { destruct (decide (2 <= length (split "."%char given))) as [Hl|Hl]; [|lia].
      apply components_patch in Hl. rewrite Hg in Hl. now destruct Hl. }
    assert (Hle : length (split "."%char expected) = 1).
    { destruct (decide (2 <= length (split "."%char expected))) as [Hl|Hl]; [|lia].
      apply components_patch in Hl. rewrite He in Hl. now destruct Hl. }
    rewrite !components_lookup_token in H0 by lia.
    rewrite (split_single _ _ Hlg), (split_single _ _ Hle) in H0.
    simpl in H0. injection H0 as ->.
    exists prog, expected, rest. split; [reflexivity | exact Hle].
  - intros (prog & s & rest & -> & Hlen).
    exists IndexError. now rewrite identical_without_dot.
Qed.

(** X3: whatever the arguments, the exit status of the process is 0 or 1. *)
Theorem exit_code_range (argv : list string) :
  exit_code (versionCheck argv) = 0%Z \/ exit_code (versionCheck argv) = 1%Z.
Proof.
  destruct (argv_cases argv) as [Hshort | (prog & expected & given & rest & ->)].
  { rewrite versionCheck_short by exact Hshort. now right. }
  destruct (versionCheck_cases prog expected given rest)
    as [(_ & Hr) | [(_ & _ & _ & _ & Hr) | [(_ & _ & _ & _ & Hr) |
        (_ & _ & _ & _ & _ & Hr)]]]; rewrite Hr; cbn; auto.
Qed.


(** ** Which versions pass the gate *)

(** X7: with both arguments supplied, the exit status is 0 exactly when
    both versions have at least two tokens and agree on the first two;
    nothing after the second token can make the gate fail. *)
Theorem passes_iff (prog expected given : string) (rest : list string) :
  exit_code (versionCheck (prog :: expected :: given :: rest)) = 0%Z <->
  (2 <= length (split "."%char given) /\
   2 <= length (split "."%char expected) /\
   split "."%char given !! 0 = split "."%char expected !! 0 /\
   split "."%char given !! 1 = split "."%char expected !! 1).
Proof.
  pose proof (split_length_pos "."%char given) as Hpg.
  pose proof (split_length_pos "."%char expected) as Hpe.
  assert (Htok : 2 <= length (split "."%char given) ->
                 2 <= length (split "."%char expected) ->
                 forall i, i < 2 ->
                 (components given !! i = components expected !! i <->
                  split "."%char given !! i = split "."%char expected !! i)).
  { intros Hg He i Hi. rewrite !components_lookup_token by lia.
    split; [|now intros ->].
    destruct (split "."%char given !! i), (split "."%char expected !! i);
      simpl; congruence. }
  destruct (versionCheck_cases prog expected given rest)
    as [(Hd & Hr) | [(H0 & H1 & Hg & He & Hr) | [(H0 & H1 & Hs & H2 & Hr) |
        (H0 & H1 & Hs & Hs' & H2 & Hr)]]]; rewrite Hr; cbn; split;
    try discriminate; try reflexivity.
  - intros (Hg & He & T0 & T1).
    destruct Hd as [Hd | Hd]; exfalso; apply Hd; apply Htok; auto.
  - intros (Hlen & _). apply components_patch in Hlen.
    rewrite Hg in Hlen. now destruct Hlen.
  - intros _. rewrite H2 in Hs.
    assert (Hlg : 2 <= length (split "."%char given)).
    { apply components_patch. rewrite H2. exact Hs. }
    assert (Hle : 2 <= length (split "."%char expected))
      by now apply components_patch.
    repeat split; auto; apply Htok; auto.
  - intros _.
    assert (Hlg : 2 <= length (split "."%char given))
      by now apply components_patch.
    assert (Hle : 2 <= length (split "."%char expected))
      by now apply components_patch.
    repeat split; auto; apply Htok; auto.
Qed.


(** X1: identical arguments with at least one separator in them exit 0
    without output. *)
Theorem identical_dotted_silent (prog s : string) (rest : list string) :
  2 <= length (split "."%char s) ->
  versionCheck (prog :: s :: s :: rest) = Outcome [] (SysExit 0) /\
  exit_code (versionCheck (prog :: s :: s :: rest)) = 0%Z.
Proof.
  intros Hlen. rewrite (identical_with_dot prog s rest Hlen).
  split; reflexivity.
Qed.

Lemma identical_dotted_silent_witness :
  versionCheck ["versionCheck.py"; "4.4.2"; "4.4.2"] = Outcome [] (SysExit 0).
Proof.
  apply (identical_dotted_silent "versionCheck.py" "4.4.2" []). simpl. lia.
Defined.

(** X9: a version without separator against a version with one is always
    blocking, in either role and even with equal first tokens: the
    padding at index 1 is an integer and never equals a token. *)
Theorem bare_against_dotted (prog bare dotted : string) (rest : list string) :
  length (split "."%char bare) = 1 ->
  2 <= length (split "."%char dotted) ->
  versionCheck (prog :: bare :: dotted :: rest) =
    Outcome ["*** Update required to ESP-IDF " +:+ bare; update] (SysExit 1) /\
  versionCheck (prog :: dotted :: bare :: rest) =
    Outcome ["*** Update required to ESP-IDF " +:+ dotted; update] (SysExit 1).
Proof.
  intros Hb Hd. rewrite !versionCheck_supplied.
  destruct (components_major bare) as (tb & _ & Hb0).
  destruct (components_major dotted) as (td & _ & Hd0).
  destruct (components_one_token bare Hb) as [Hb1 _].
  assert (Hd1 : exists t, components dotted !! 1 = Some (VStr t)).
  { rewrite components_lookup_token by lia.
    destruct (split "."%char dotted !! 1) as [t|] eqn:Ht; [eauto|].
    apply lookup_ge_None in Ht. lia. }
  destruct Hd1 as [t Hd1].
  rewrite Hb0, Hd0, Hb1, Hd1. simpl.
  split.
  - destruct (td =? tb)%string; reflexivity.
  - destruct (tb =? td)%string; reflexivity.
Qed.

Lemma bare_against_dotted_witness :
  versionCheck ["versionCheck.py"; "4"; "4.0"] =
    Outcome ["*** Update required to ESP-IDF 4"; update] (SysExit 1) /\
  versionCheck ["versionCheck.py"; "4.0"; "4"] =
    Outcome ["*** Update required to ESP-IDF 4.0"; update] (SysExit 1).
Proof.
  apply (bare_against_dotted "versionCheck.py" "4" "4.0" []); simpl; lia.
Defined.

(** X14: a version with exactly two tokens against a version with three
    tokens or more and the same first two tokens always gives the
    recommendation, in either role and whatever the third token is: the
    padding at index 2 is an integer and never equals a token. *)
Theorem missing_patch_advisory (prog short long : string) (rest : list string) :
  length (split "."%char short) = 2 ->
  3 <= length (split "."%char long) ->
  split "."%char short !! 0 = split "."%char long !! 0 ->
  split "."%char short !! 1 = split "."%char long !! 1 ->
  versionCheck (prog :: short :: long :: rest) =
    Outcome ["Recommend using ESP-IDF " +:+ short +:+ " (found " +:+ long +:+ ")";
             update] (SysExit 0) /\
  versionCheck (prog :: long :: short :: rest) =
    Outcome ["Recommend using ESP-IDF " +:+ long +:+ " (found " +:+ short +:+ ")";
             update] (SysExit 0).
Proof.
  intros Hs Hl T0 T1.
  assert (H0 : components short !! 0 = components long !! 0).
  { rewrite !components_lookup_token by lia. now rewrite T0. }
  assert (H1 : components short !! 1 = components long !! 1).
  { rewrite !components_lookup_token by lia. now rewrite T1. }
  assert (H2 : components short !! 2 <> components long !! 2).
  { pose proof (components_lookup_pad short) as Hp. rewrite Hs in Hp.
    rewrite Hp by lia. rewrite components_lookup_token by lia.
    destruct (split "."%char long !! 2); discriminate. }
  split.
  - apply patch_differs_advisory; congruence.
  - apply patch_differs_advisory; congruence.
Qed.

Lemma missing_patch_advisory_witness :
  versionCheck ["versionCheck.py"; "4.4"; "4.4.7"] =
    Outcome ["Recommend using ESP-IDF 4.4 (found 4.4.7)"; update] (SysExit 0) /\
  versionCheck ["versionCheck.py"; "4.4.7"; "4.4"] =
    Outcome ["Recommend using ESP-IDF 4.4.7 (found 4.4)"; update] (SysExit 0).
Proof.
  apply (missing_patch_advisory "versionCheck.py" "4.4" "4.4.7" []);
    solve [reflexivity | simpl; lia].
Defined.
